(** * Verification of [main.py]: the local-LLM worker and the flowchart view

    The development embeds the two pieces of logic of [main.py]:
    - [LocalLLMWorker.run]: builds a prompt, issues one HTTP POST, cleans the
      model's answer and reports through the signals [result_ready] and
      [log_updated];
    - [ProcessGuiApp.update_flow_chart]: escapes the received Mermaid code and
      injects it into the page as a JavaScript call.

    Python strings are sequences of Unicode code points; they are modelled as
    lists of code points so that [str.replace] and [str.strip] act on the same
    units as in Python.  The effects of [run] (signal emissions, the HTTP
    request, exceptions) are threaded through a small state-and-exception
    monad whose state is the trace of what the thread has done so far. *)

From Stdlib Require Import List ZArith NArith Lia Bool String Ascii.
From Stdlib Require Import DecimalString DecimalPos DecimalZ.
Import ListNotations.

(** ** Python strings *)

Module PyStr.

(** A Python [str]: its code points, in order. *)
Definition pystr := list N.

(** [utf8 bs] decodes the UTF-8 bytes [bs]; it is used to write the string
    literals of the source, which the proof script holds as UTF-8. *)
Fixpoint utf8 (bs : list N) : pystr :=
  match bs with
  | [] => []
  | b :: rest =>
    if (b <? 128)%N then b :: utf8 rest
    else if (b <? 224)%N then
      match rest with
      | b1 :: rest1 =>
        (N.land b 31 * 64 + N.land b1 63)%N :: utf8 rest1
      | _ => []
      end
    else if (b <? 240)%N then
      match rest with
      | b1 :: b2 :: rest2 =>
        (N.land b 15 * 4096 + N.land b1 63 * 64 + N.land b2 63)%N :: utf8 rest2
      | _ => []
      end
    else
      match rest with
      | b1 :: b2 :: b3 :: rest3 =>
        (N.land b 7 * 262144 + N.land b1 63 * 4096
         + N.land b2 63 * 64 + N.land b3 63)%N :: utf8 rest3
      | _ => []
      end
  end.

Fixpoint bytes_of (s : string) : list N :=
  match s with
  | EmptyString => []
  | String a s' => N_of_ascii a :: bytes_of s'
  end.

(** The Python literal written as [s]. *)
Definition lit (s : string) : pystr := utf8 (bytes_of s).

Definition eqb (a b : pystr) : bool :=
  if list_eq_dec N.eq_dec a b then true else false.

(** [startswith old s]: [s] begins with [old]. *)
Fixpoint startswith (old s : pystr) : bool :=
  match old, s with
  | [], _ => true
  | _ :: _, [] => false
  | a :: old', c :: s' => (a =? c)%N && startswith old' s'
  end.

(** [old in s]: [old] occurs somewhere in [s]. *)
Fixpoint contains (old s : pystr) : bool :=
  startswith old s ||
  match s with
  | [] => false
  | _ :: s' => contains old s'
  end.

(** The scan of [str.replace] for a non-empty [old]: left to right, an
    occurrence found at the current position is replaced by [new] and the scan
    resumes after it ([skip] counts the characters of the occurrence still to
    be passed over), so occurrences are taken without overlap. *)
Fixpoint replace_scan (old new : pystr) (skip : nat) (s : pystr) : pystr :=
  match s with
  | [] => []
  | c :: s' =>
    match skip with
    | S k => replace_scan old new k s'
    | O =>
      if startswith old s
      then new ++ replace_scan old new (List.length old - 1) s'
      else c :: replace_scan old new 0 s'
    end
  end.

(** [s.replace(old, new)].  With an empty [old] Python puts [new] before
    every character and at the end. *)
Definition replace (s old new : pystr) : pystr :=
  match old with
  | [] => new ++ flat_map (fun c => c :: new) s
  | _ :: _ => replace_scan old new 0 s
  end.

(** [str.isspace] on one code point: the characters [str.strip()] removes. *)
Definition isspace (c : N) : bool :=
  ((9 <=? c) && (c <=? 13) || (28 <=? c) && (c <=? 32)
   || (c =? 133) || (c =? 160) || (c =? 5760)
   || (8192 <=? c) && (c <=? 8202)
   || (c =? 8232) || (c =? 8233) || (c =? 8239) || (c =? 8287)
   || (c =? 12288))%N.

Fixpoint lstrip (s : pystr) : pystr :=
  match s with
  | [] => []
  | c :: s' => if isspace c then lstrip s' else s
  end.

Definition rstrip (s : pystr) : pystr := rev (lstrip (rev s)).

(** [s.strip()]. *)
Definition strip (s : pystr) : pystr := rstrip (lstrip s).

(** [str(n)] for a Python [int]. *)
Definition of_int (z : Z) : pystr :=
  bytes_of (NilZero.string_of_int (Z.to_int z)).

End PyStr.

Import PyStr.

(** ** Python values, exceptions and the HTTP response *)

#[local] Unset Elimination Schemes.

(** The values [response.json()] can produce, with their Python types. A
    [dict] keeps its entries in insertion order; [PyFloat] carries the number
    as written, since nothing here computes with it. *)
Inductive pyval :=
| PyNone
| PyBool (b : bool)
| PyInt (z : Z)
| PyFloat (written : pystr)
| PyStr (s : pystr)
| PyList (items : list pyval)
| PyDict (entries : list (pystr * pyval)).
#[local] Set Elimination Schemes.

(** [type(v).__name__]. *)
Definition type_name (v : pyval) : pystr :=
  match v with
  | PyNone => lit "NoneType"
  | PyBool _ => lit "bool"
  | PyInt _ => lit "int"
  | PyFloat _ => lit "float"
  | PyStr _ => lit "str"
  | PyList _ => lit "list"
  | PyDict _ => lit "dict"
  end.

(** An instance of (a subclass of) [Exception]; [exn_str e] is [str(e)]. *)
Record exn := Exception { exn_str : pystr }.

(** [AttributeError] for a method the value's type does not have. *)
Definition AttributeError (v : pyval) (attr : pystr) : exn :=
  Exception (lit "'" ++ type_name v ++ lit "' object has no attribute '"
             ++ attr ++ lit "'").

(** What the thread gets back from [requests]: the status code, and what
    calling [.json()] on the response does (decode the body, or raise). *)
Record response := Response {
  status_code : Z;
  json : exn + pyval
}.

(** What [requests.post] does: raise, or return a response. *)
Inductive reply :=
| Raises (e : exn)
| Returns (r : response).

(** The network answers the k-th request of a run (counted from 0). *)
Definition network := nat -> reply.

(** ** Signals, trace and the monad of the thread *)

Inductive signal :=
| result_ready (mermaid_code : pystr)
| log_updated (text : pystr).

(** What a run does that is visible outside the thread, in order. *)
Inductive event :=
| Emit (sg : signal)
| Post (url : pystr) (data : pyval).

Definition trace := list event.

Inductive outcome (A : Type) :=
| Normal (a : A)
| Raised (e : exn).
Arguments Normal {A} a.
Arguments Raised {A} e.

(** A computation of the thread: it reads the network, extends the trace, and
    ends normally or by raising. *)
Definition M (A : Type) := network -> trace -> outcome A * trace.

Definition ret {A} (a : A) : M A := fun _ t => (Normal a, t).

Definition raise {A} (e : exn) : M A := fun _ t => (Raised e, t).

Definition bind {A B} (m : M A) (k : A -> M B) : M B :=
  fun net t =>
    match m net t with
    | (Normal a, t') => k a net t'
    | (Raised e, t') => (Raised e, t')
    end.

(** [try: body  except Exception as e: handler e]. *)
Definition try_except {A} (body : M A) (handler : exn -> M A) : M A :=
  fun net t =>
    match body net t with
    | (Normal a, t') => (Normal a, t')
    | (Raised e, t') => handler e net t'
    end.

Notation "x <- m ;; k" := (bind m (fun x => k))
  (at level 61, m at next level, right associativity).
Notation "m ;; k" := (bind m (fun _ => k))
  (at level 61, right associativity).

(** [signal.emit(...)]: the emission is queued for the UI thread. *)
Definition emit (sg : signal) : M unit :=
  fun _ t => (Normal tt, t ++ [Emit sg]).

Definition posts (t : trace) : list (pystr * pyval) :=
  flat_map (fun ev => match ev with Post u d => [(u, d)] | Emit _ => [] end) t.

Definition signals (t : trace) : list signal :=
  flat_map (fun ev => match ev with Emit sg => [sg] | Post _ _ => [] end) t.

Definition results (t : trace) : list pystr :=
  flat_map (fun ev => match ev with
                      | Emit (result_ready s) => [s]
                      | _ => []
                      end) t.

Definition logs (t : trace) : list pystr :=
  flat_map (fun ev => match ev with
                      | Emit (log_updated s) => [s]
                      | _ => []
                      end) t.

(** The signals emitted once the (first) request has been issued, that is,
    after the network call of the run has come back. *)
Fixpoint signals_after_post (t : trace) : list signal :=
  match t with
  | [] => []
  | Post _ _ :: t' => signals t'
  | Emit _ :: t' => signals_after_post t'
  end.

(** [requests.post(url, json=data)]: the request goes out, and the network's
    answer to it is returned or raised. *)
Definition requests_post (url : pystr) (data : pyval) : M response :=
  fun net t =>
    match net (List.length (posts t)) with
    | Raises e => (Raised e, t ++ [Post url data])
    | Returns r => (Normal r, t ++ [Post url data])
    end.

(** [response.json()]. *)
Definition response_json (r : response) : M pyval :=
  match json r with
  | inl e => raise e
  | inr v => ret v
  end.

Fixpoint lookup (key : pystr) (entries : list (pystr * pyval)) : option pyval :=
  match entries with
  | [] => None
  | (k, v) :: rest => if eqb k key then Some v else lookup key rest
  end.

(** [v.get(key, default)]: defined on a [dict] only. *)
Definition py_get (v : pyval) (key : pystr) (default : pyval) : M pyval :=
  match v with
  | PyDict entries =>
    match lookup key entries with
    | Some x => ret x
    | None => ret default
    end
  | _ => raise (AttributeError v (lit "get"))
  end.

(** [v.replace(old, new)]: defined on a [str] only. *)
Definition py_replace (v : pyval) (old new : pystr) : M pyval :=
  match v with
  | PyStr s => ret (PyStr (replace s old new))
  | _ => raise (AttributeError v (lit "replace"))
  end.

(** [v.strip()]: defined on a [str] only. *)
Definition py_strip (v : pyval) : M pystr :=
  match v with
  | PyStr s => ret (strip s)
  | _ => raise (AttributeError v (lit "strip"))
  end.

(** ** [LocalLLMWorker] *)

Record LocalLLMWorker := {
  context_text : pystr;
  prompt_type : pystr;
  api_url : pystr
}.

(** [LocalLLMWorker.__init__(context_text, prompt_type)]. *)
Definition new_worker (context_text prompt_type : pystr) : LocalLLMWorker :=
  {| context_text := context_text;
     prompt_type := prompt_type;
     api_url := lit "http://localhost:11434/api/generate" |}.

Definition nl : N := 10.

Definition system_prompt (w : LocalLLMWorker) : pystr :=
  if eqb (prompt_type w) (lit "process_flow") then
    lit "你是一个资深工艺工程师。请根据用户提供的图纸信息，设计一套工艺流程。"
    ++ lit "请务必只输出 Mermaid.js 的流程图代码 (graph TD...)，不要包含Markdown标记。"
    ++ lit "确保节点包含具体工艺参数。"
  else
    lit "分析图纸信息并提取知识实体。".

Definition full_prompt (w : LocalLLMWorker) : pystr :=
  system_prompt w ++ [nl; nl] ++ lit "【图纸信息】:" ++ [nl] ++ context_text w.

Definition data (w : LocalLLMWorker) : pyval :=
  PyDict [ (lit "model", PyStr (lit "qwen2.5"));
           (lit "prompt", PyStr (full_prompt w));
           (lit "stream", PyBool false) ].

(** The body of the [try] statement of [run]. *)
Definition request_block (w : LocalLLMWorker) : M unit :=
  emit (log_updated (lit "正在请求本地大模型进行计算...")) ;;
  response <- requests_post (api_url w) (data w) ;;
  if (status_code response =? 200)%Z then
    body <- response_json response ;;
    result <- py_get body (lit "response") (PyStr []) ;;
    without_tag <- py_replace result (lit "```mermaid") [] ;;
    without_fence <- py_replace without_tag (lit "```") [] ;;
    clean_result <- py_strip without_fence ;;
    emit (result_ready clean_result) ;;
    emit (log_updated (lit "计算完成，正在渲染..."))
  else
    emit (log_updated (lit "错误: API 返回 " ++ of_int (status_code response))).

(** [LocalLLMWorker.run]. *)
Definition run (w : LocalLLMWorker) : M unit :=
  try_except (request_block w)
    (fun e => emit (log_updated (lit "连接本地模型失败: " ++ exn_str e))).

(** A whole run of the thread against a network, from an empty trace. *)
Definition run_thread (w : LocalLLMWorker) (net : network) : outcome unit * trace :=
  run w net [].

(** The cleaning applied to the model's answer, as one function on strings. *)
Definition clean (s : pystr) : pystr :=
  strip (replace (replace s (lit "```mermaid") []) (lit "```") []).

(** ** [ProcessGuiApp] *)

(** The part of the window the worker's signals act on: the log widget (its
    lines), the scripts run on the flowchart page, and the generate button. *)
Record ProcessGuiApp := {
  ocr_text : pystr;
  log_area : list pystr;
  view_flow_scripts : list pystr;
  btn_gen_flow_enabled : bool
}.

Definition log_append (text : pystr) (g : ProcessGuiApp) : ProcessGuiApp :=
  {| ocr_text := ocr_text g;
     log_area := log_area g ++ [text];
     view_flow_scripts := view_flow_scripts g;
     btn_gen_flow_enabled := btn_gen_flow_enabled g |}.

Definition runJavaScript (js : pystr) (g : ProcessGuiApp) : ProcessGuiApp :=
  {| ocr_text := ocr_text g;
     log_area := log_area g;
     view_flow_scripts := view_flow_scripts g ++ [js];
     btn_gen_flow_enabled := btn_gen_flow_enabled g |}.

Definition setEnabled (b : bool) (g : ProcessGuiApp) : ProcessGuiApp :=
  {| ocr_text := ocr_text g;
     log_area := log_area g;
     view_flow_scripts := view_flow_scripts g;
     btn_gen_flow_enabled := b |}.

Definition update_log (text : pystr) (g : ProcessGuiApp) : ProcessGuiApp :=
  log_append text g.

Definition quote : N := 34.
Definition backslash : N := 92.

(** [safe_code] of [update_flow_chart]. *)
Definition safe_code (mermaid_code : pystr) : pystr :=
  replace (replace mermaid_code [nl] [backslash; 110%N]) [quote] [backslash; quote].

Definition js_command (mermaid_code : pystr) : pystr :=
  lit "updateGraph(" ++ [quote] ++ safe_code mermaid_code ++ [quote] ++ lit ");".

Definition update_flow_chart (mermaid_code : pystr) (g : ProcessGuiApp) : ProcessGuiApp :=
  runJavaScript (js_command mermaid_code)
    (log_append (lit "收到模型反馈，正在渲染图表...") g).

(** The connections made in [start_generation]. *)
Definition on_signal (g : ProcessGuiApp) (sg : signal) : ProcessGuiApp :=
  match sg with
  | result_ready code => update_flow_chart code g
  | log_updated text => update_log text g
  end.

(** One press of the generate button: [start_generation], the worker's run,
    its queued signals handled in emission order, then [finished]. *)
Definition generation (net : network) (g : ProcessGuiApp) : ProcessGuiApp :=
  let g1 := log_append (lit "开始调用本地模型...") (setEnabled false g) in
  let worker := new_worker (ocr_text g1) (lit "process_flow") in
  let g2 := fold_left on_signal (signals (snd (run_thread worker net))) g1 in
  setEnabled true g2.

(** ** JavaScript string literals *)

(** The value of [\c] for a single-character escape [c], if [c] is one of
    [b f n r t v]. *)
Definition js_control_escape (c : N) : option N :=
  (if c =? 98 then Some 8
   else if c =? 102 then Some 12
   else if c =? 110 then Some 10
   else if c =? 114 then Some 13
   else if c =? 116 then Some 9
   else if c =? 118 then Some 11
   else None)%N.

(** Escapes written with digits: [\0]..[\9], [\x..], [\u..]. *)
Definition js_numeric_escape (c : N) : bool :=
  ((48 <=? c) && (c <=? 57) || (c =? 120) || (c =? 117))%N.

(** The string value of [body] read as the characters between the quotes of a
    JavaScript double-quoted string literal (ECMAScript, String Literals), or
    [None] when [body] is not such a sequence of characters: an unescaped
    quote ends the literal early, an unescaped line feed or carriage return
    or a trailing backslash leaves it unterminated.  A backslash before a
    line terminator is a line continuation and contributes nothing.  Escapes
    written with digits are left out of this fragment ([None]). *)
Fixpoint js_string_value (body : pystr) : option pystr :=
  match body with
  | [] => Some []
  | c :: rest =>
    if (c =? quote)%N || (c =? 10)%N || (c =? 13)%N then None
    else if (c =? backslash)%N then
      match rest with
      | [] => None
      | e :: rest' =>
        if js_numeric_escape e then None
        else if (e =? 10)%N || (e =? 8232)%N || (e =? 8233)%N then
          js_string_value rest'
        else if (e =? 13)%N then
          match rest' with
          | 10%N :: rest'' => js_string_value rest''
          | _ => js_string_value rest'
          end
        else
          match js_control_escape e, js_string_value rest' with
          | Some v, Some tail => Some (v :: tail)
          | None, Some tail => Some (e :: tail)
          | _, None => None
          end
      end
    else
      match js_string_value rest with
      | Some tail => Some (c :: tail)
      | None => None
      end
  end.

(** ** The rest of [ProcessGuiApp] *)

(** [ProcessGuiApp.__init__]: the window as it opens.  The OCR text is the
    fixed sample the source assigns to [self.ocr_text]. *)
Definition init_app : ProcessGuiApp :=
  {| ocr_text :=
       lit "零件名称: 传动轴" ++ [nl] ++ lit "材料: 45钢" ++ [nl]
       ++ lit "热处理: 调质" ++ [nl] ++ lit "精度要求: IT7" ++ [nl]
       ++ lit "特征: 两个键槽，一段螺纹。";
     log_area := [];
     view_flow_scripts := [];
     btn_gen_flow_enabled := true |}.

(** [load_image], given the file name the dialog returns (the empty string
    when the dialog is cancelled). *)
Definition load_image (fname : pystr) (g : ProcessGuiApp) : ProcessGuiApp :=
  match fname with
  | [] => g
  | _ :: _ => log_append (lit "已加载: " ++ fname) g
  end.

(** [start_generation] up to [worker.start()]: the window afterwards and the
    worker it has created. *)
Definition start_generation (g : ProcessGuiApp) : ProcessGuiApp * LocalLLMWorker :=
  let g1 := log_append (lit "开始调用本地模型...") (setEnabled false g) in
  (g1, new_worker (ocr_text g1) (lit "process_flow")).

(** ** Auxiliary definitions for the statements *)

(** The fence pattern: three backquotes. *)
Definition fence : pystr := [96; 96; 96]%N.

(** What [safe_code] writes for one character of the Mermaid code. *)
Definition escaped (c : N) : pystr :=
  if (c =? nl)%N then [backslash; 110%N]
  else if (c =? quote)%N then [backslash; quote]
  else [c].

(** The text [run] cleans and emits for an answer of the network, if it
    emits one: status 200 and a body that is an object whose ["response"] is
    a string, or is missing (then the default empty string). *)
Definition answer_text (rp : reply) : option pystr :=
  match rp with
  | Raises _ => None
  | Returns r =>
    if (status_code r =? 200)%Z then
      match json r with
      | inr (PyDict entries) =>
        match lookup (lit "response") entries with
        | Some (PyStr s) => Some s
        | Some _ => None
        | None => Some []
        end
      | _ => None
      end
    else None
  end.

(** The line a signal adds to the log widget. *)
Definition log_line (sg : signal) : pystr :=
  match sg with
  | result_ready _ => lit "收到模型反馈，正在渲染图表..."
  | log_updated text => text
  end.

(** The script a signal runs on the flowchart page, if any. *)
Definition script_of (sg : signal) : list pystr :=
  match sg with
  | result_ready code => [js_command code]
  | log_updated _ => []
  end.

(** ** Sample inputs *)

(** The worker [start_generation] creates for the OCR text of the window. *)
Definition sample_worker : LocalLLMWorker :=
  new_worker (lit "零件名称: 传动轴") (lit "process_flow").

Definition net_refused : network :=
  fun _ => Raises (Exception (lit "Connection refused")).

Definition net_status (code : Z) : network :=
  fun _ => Returns (Response code (inl (Exception (lit "Expecting value")))).

Definition net_json (v : pyval) : network :=
  fun _ => Returns (Response 200 (inr v)).

Definition sample_answer : pyval :=
  PyDict [ (lit "model", PyStr (lit "qwen2.5"));
           (lit "response", PyStr (lit "```mermaid graph TD; A-->B; ```"));
           (lit "done", PyBool true) ].

(** Unfolds the thread monad down to the first answer of the network. *)
Ltac step_run :=
  unfold run_thread, run, try_except, request_block, bind, emit,
    requests_post; simpl.

(** * Properties *)

(** ** Checks of the string model on concrete inputs *)

Example lit_cjk : lit "错误" = [38169; 35823]%N.
Proof. reflexivity. Qed.

Example replace_overlap :
  replace (lit "a````b") (lit "```") [] = lit "a`b".
Proof. reflexivity. Qed.

Example replace_empty_old :
  replace (lit "ab") [] (lit "-") = lit "-a-b-".
Proof. reflexivity. Qed.

Example strip_both :
  strip (10 :: lit "  graph TD  " ++ [12288; 10])%N = lit "graph TD".
Proof. reflexivity. Qed.

Example of_int_examples :
  of_int 404 = lit "404" /\ of_int (-1) = lit "-1" /\ of_int 0 = lit "0".
Proof. repeat split; reflexivity. Qed.

(** ** Facts about [str.replace] and [str.strip] *)

#[local] Arguments N.eqb : simpl never.
#[local] Arguments N.leb : simpl never.

Section ReplaceFacts.

Variables old new : pystr.

Lemma replace_scan_cons (c : N) (s : pystr) :
  replace_scan old new 0 (c :: s) =
  if startswith old (c :: s)
  then new ++ replace_scan old new (List.length old - 1) s
  else c :: replace_scan old new 0 s.
Proof. reflexivity. Qed.

Lemma replace_scan_skip (k : nat) (s : pystr) :
  replace_scan old new k s = replace_scan old new 0 (skipn k s).
Proof.
  revert k; induction s as [|c s IH]; intros [|k]; try reflexivity.
  simpl skipn. simpl replace_scan at 1. apply IH.
Qed.

Lemma contains_cons (c : N) (s : pystr) :
  contains old (c :: s) = startswith old (c :: s) || contains old s.
Proof. reflexivity. Qed.

(** Where [old] does not occur, [replace] changes nothing. *)
Lemma replace_scan_absent (s : pystr) :
  old <> [] -> contains old s = false -> replace_scan old new 0 s = s.
Proof.
  intros Hne; induction s as [|c s IH]; intros H; [reflexivity|].
  rewrite contains_cons in H. apply orb_false_iff in H as [Hs Hc].
  rewrite replace_scan_cons, Hs. f_equal. auto.
Qed.

End ReplaceFacts.

Lemma replace_absent (old new s : pystr) :
  old <> [] -> contains old s = false -> replace s old new = s.
Proof.
  intros Hne H. destruct old as [|a o]; [congruence|].
  now apply replace_scan_absent.
Qed.

Lemma startswith_iff (old s : pystr) :
  startswith old s = true <-> exists rest, s = old ++ rest.
Proof.
  revert s; induction old as [|a o IH]; intros s; simpl.
  - split; [now exists s | reflexivity].
  - destruct s as [|c s].
    + split; [discriminate | now intros [r H]].
    + rewrite andb_true_iff, N.eqb_eq, IH. split.
      * intros [-> [r ->]]. now exists r.
      * intros [r H]. injection H as -> ->. split; [reflexivity | now exists r].
Qed.

Lemma startswith_app_l (a b s : pystr) :
  startswith (a ++ b) s = true -> startswith a s = true.
Proof.
  revert s; induction a as [|x a IH]; intros s H; [now destruct s|].
  destruct s as [|c s]; simpl in *; [discriminate|].
  apply andb_true_iff in H as [H1 H2]. rewrite H1. simpl. auto.
Qed.

Lemma startswith_app_r (old a b : pystr) :
  startswith old a = true -> startswith old (a ++ b) = true.
Proof.
  revert a; induction old as [|x o IH]; intros a H; [reflexivity|].
  destruct a as [|c a]; simpl in *; [discriminate|].
  apply andb_true_iff in H as [H1 H2]. rewrite H1. simpl. auto.
Qed.

Lemma contains_app_l (old a b : pystr) :
  contains old a = true -> contains old (a ++ b) = true.
Proof.
  induction a as [|c a IH]; intros H.
  - simpl in H. rewrite orb_false_r in H.
    destruct old; [now destruct b | discriminate].
  - rewrite contains_cons in H. simpl app. rewrite contains_cons.
    apply orb_true_iff in H as [H|H]; apply orb_true_iff.
    + left. now apply (startswith_app_r old (c :: a) b).
    + right. auto.
Qed.

Lemma contains_app_r (old a b : pystr) :
  contains old b = true -> contains old (a ++ b) = true.
Proof.
  intros H; induction a as [|c a IH]; [exact H|].
  simpl app. rewrite contains_cons, IH. apply orb_true_r.
Qed.

(** A longer pattern occurs only where its beginning occurs. *)
Lemma contains_longer (a b s : pystr) :
  contains a s = false -> contains (a ++ b) s = false.
Proof.
  induction s as [|c s IH]; intros H.
  - simpl in *. rewrite orb_false_r in *.
    destruct a; [discriminate | reflexivity].
  - rewrite contains_cons in *. apply orb_false_iff in H as [H1 H2].
    rewrite (IH H2), orb_false_r.
    destruct (startswith (a ++ b) (c :: s)) eqn:E; [|reflexivity].
    apply startswith_app_l in E. congruence.
Qed.

Lemma lstrip_suffix (s : pystr) : exists pre, s = pre ++ lstrip s.
Proof.
  induction s as [|c s [pre IH]]; [now exists []|].
  simpl. destruct (isspace c).
  - exists (c :: pre). simpl. now f_equal.
  - now exists [].
Qed.

Lemma rstrip_prefix (s : pystr) : exists post, s = rstrip s ++ post.
Proof.
  unfold rstrip. destruct (lstrip_suffix (rev s)) as [pre H].
  exists (rev pre). rewrite <- rev_app_distr, <- H. now rewrite rev_involutive.
Qed.

Lemma contains_strip (old s : pystr) :
  contains old (strip s) = true -> contains old s = true.
Proof.
  unfold strip. intros H.
  destruct (lstrip_suffix s) as [pre Hl].
  destruct (rstrip_prefix (lstrip s)) as [post Hr].
  rewrite Hl, Hr. apply contains_app_r, contains_app_l, H.
Qed.

Lemma lstrip_idem (s : pystr) : lstrip (lstrip s) = lstrip s.
Proof.
  induction s as [|c s IH]; [reflexivity|].
  simpl. destruct (isspace c) eqn:E; [exact IH|]. simpl. now rewrite E.
Qed.

Lemma lstrip_snoc (s : pystr) (c : N) :
  isspace c = false -> lstrip (s ++ [c]) = lstrip s ++ [c].
Proof.
  intros Hc; induction s as [|x s IH]; simpl.
  - now rewrite Hc.
  - destruct (isspace x); [exact IH | reflexivity].
Qed.

Lemma rstrip_cons (c : N) (s : pystr) :
  isspace c = false -> rstrip (c :: s) = c :: rstrip s.
Proof.
  intros Hc. unfold rstrip. simpl rev.
  rewrite lstrip_snoc by exact Hc. rewrite rev_app_distr. reflexivity.
Qed.

Lemma rstrip_idem (s : pystr) : rstrip (rstrip s) = rstrip s.
Proof.
  unfold rstrip. now rewrite rev_involutive, lstrip_idem.
Qed.

Lemma lstrip_rstrip_lstrip (s : pystr) :
  lstrip (rstrip (lstrip s)) = rstrip (lstrip s).
Proof.
  induction s as [|c s IH]; [reflexivity|].
  simpl lstrip at 2 3. destruct (isspace c) eqn:E; [exact IH|].
  rewrite rstrip_cons by exact E. simpl. now rewrite E.
Qed.

Lemma strip_idem (s : pystr) : strip (strip s) = strip s.
Proof.
  unfold strip. now rewrite lstrip_rstrip_lstrip, rstrip_idem.
Qed.

(** *** The fence pattern *)

Lemma lit_fence : lit "```" = fence.
Proof. reflexivity. Qed.

Lemma lit_tag : lit "```mermaid" = fence ++ lit "mermaid".
Proof. reflexivity. Qed.

Lemma scan_fence_cons (c : N) (s : pystr) :
  replace_scan fence [] 0 (c :: s) =
  if startswith fence (c :: s)
  then replace_scan fence [] 0 (skipn 2 s)
  else c :: replace_scan fence [] 0 s.
Proof.
  rewrite replace_scan_cons. destruct (startswith fence (c :: s)); [|reflexivity].
  simpl app. apply replace_scan_skip.
Qed.

(** A fence at the head of the output, one character in, was already a fence
    at the head of the input. *)
Lemma scan_fence_head (c : N) (s : pystr) :
  startswith fence (c :: replace_scan fence [] 0 s) = true ->
  startswith fence (c :: s) = true.
Proof.
  rewrite !startswith_iff. intros [r H]. unfold fence in *. simpl in H.
  injection H as Hc H. subst c.
  destruct s as [|c1 s1]; [discriminate|].
  rewrite scan_fence_cons in H.
  destruct (startswith fence (c1 :: s1)) eqn:E1.
  - apply startswith_iff in E1 as [r1 E1]. rewrite E1. now eexists.
  - injection H as Hc1 H. subst c1.
    destruct s1 as [|c2 s2]; [discriminate|].
    rewrite scan_fence_cons in H.
    destruct (startswith fence (c2 :: s2)) eqn:E2.
    + apply startswith_iff in E2 as [r2 E2]. rewrite E2. now eexists.
    + injection H as Hc2 H. subst c2. now eexists.
Qed.

(** After [.replace("```", "")] no fence is left. *)
Lemma scan_fence_clears (k : nat) (s : pystr) :
  contains fence (replace_scan fence [] k s) = false.
Proof.
  revert k; induction s as [|c s IH]; intros k; [now destruct k|].
  destruct k as [|k]; [|apply IH].
  rewrite replace_scan_cons.
  destruct (startswith fence (c :: s)) eqn:E; [apply IH|].
  rewrite contains_cons, IH, orb_false_r.
  destruct (startswith fence (c :: replace_scan fence [] 0 s)) eqn:E'; [|reflexivity].
  apply scan_fence_head in E'. congruence.
Qed.

Lemma clean_no_fence (s : pystr) : contains fence (clean s) = false.
Proof.
  unfold clean. rewrite lit_fence.
  destruct (contains fence (strip _)) eqn:E; [|reflexivity].
  apply contains_strip in E. unfold replace, fence in E. fold fence in E.
  now rewrite scan_fence_clears in E.
Qed.

Lemma clean_fixed (s : pystr) : contains fence s = false -> clean s = strip s.
Proof.
  intros H. unfold clean.
  rewrite (replace_absent (lit "```mermaid") [] s).
  - rewrite lit_fence, replace_absent; [reflexivity | discriminate | exact H].
  - discriminate.
  - rewrite lit_tag. now apply contains_longer.
Qed.

(** ** The runs of the worker thread, case by case *)

#[local] Arguments lit : simpl never.
#[local] Arguments of_int : simpl never.
#[local] Arguments data : simpl never.
#[local] Arguments Z.eqb : simpl never.

Section Runs.

Variable w : LocalLLMWorker.
Variable net : network.

Lemma run_post_raises (e : exn) :
  net 0 = Raises e ->
  run_thread w net =
  (Normal tt,
   [ Emit (log_updated (lit "正在请求本地大模型进行计算..."));
     Post (api_url w) (data w);
     Emit (log_updated (lit "连接本地模型失败: " ++ exn_str e)) ]).
Proof. intros H. step_run. now rewrite H. Qed.

Lemma run_status_not_200 (r : response) :
  net 0 = Returns r -> status_code r <> 200%Z ->
  run_thread w net =
  (Normal tt,
   [ Emit (log_updated (lit "正在请求本地大模型进行计算..."));
     Post (api_url w) (data w);
     Emit (log_updated (lit "错误: API 返回 " ++ of_int (status_code r))) ]).
Proof.
  intros H Hs. step_run. rewrite H.
  apply Z.eqb_neq in Hs. now rewrite Hs.
Qed.

(** Status 200: what follows the request is decided by the body. *)
Lemma run_status_200 (r : response) :
  net 0 = Returns r -> status_code r = 200%Z ->
  run_thread w net =
  let before :=
    [ Emit (log_updated (lit "正在请求本地大模型进行计算..."));
      Post (api_url w) (data w) ] in
  let failed e :=
    (Normal tt,
     before ++ [Emit (log_updated (lit "连接本地模型失败: " ++ exn_str e))]) in
  match json r with
  | inl e => failed e
  | inr (PyDict entries) =>
    match lookup (lit "response") entries with
    | Some (PyStr s) =>
      (Normal tt,
       before ++ [ Emit (result_ready (clean s));
                   Emit (log_updated (lit "计算完成，正在渲染...")) ])
    | Some v => failed (AttributeError v (lit "replace"))
    | None =>
      (Normal tt,
       before ++ [ Emit (result_ready (clean []));
                   Emit (log_updated (lit "计算完成，正在渲染...")) ])
    end
  | inr v => failed (AttributeError v (lit "get"))
  end.
Proof.
  intros H Hs. step_run. rewrite H.
  apply Z.eqb_eq in Hs. rewrite Hs.
  unfold response_json.
  destruct (json r) as [e|v]; [reflexivity|].
  destruct v; try reflexivity.
  unfold ret, py_get. destruct (lookup (lit "response") entries) as [v|]; [|reflexivity].
  destruct v; reflexivity.
Qed.

End Runs.

Lemma clean_empty : clean [] = [].
Proof. reflexivity. Qed.

Lemma run_posts_once (w : LocalLLMWorker) (net : network) :
  posts (snd (run_thread w net)) = [(api_url w, data w)].
Proof.
  destruct (net 0) as [e|r] eqn:H.
  - now rewrite (run_post_raises w net e H).
  - destruct (Z.eq_dec (status_code r) 200) as [Hs|Hs].
    + rewrite (run_status_200 w net r H Hs).
      destruct (json r) as [e|v]; [reflexivity|].
      destruct v; try reflexivity.
      destruct (lookup (lit "response") entries) as [v|]; [|reflexivity].
      destruct v; reflexivity.
    + now rewrite (run_status_not_200 w net r H Hs).
Qed.

(** A status-200 answer whose body is an object with a string under
    ["response"]. *)
Lemma run_with_response (w : LocalLLMWorker) (net : network) (r : response)
    (entries : list (pystr * pyval)) (s : pystr) :
  net 0 = Returns r -> status_code r = 200%Z ->
  json r = inr (PyDict entries) ->
  lookup (lit "response") entries = Some (PyStr s) ->
  run_thread w net =
  (Normal tt,
   [ Emit (log_updated (lit "正在请求本地大模型进行计算..."));
     Post (api_url w) (data w);
     Emit (result_ready (clean s));
     Emit (log_updated (lit "计算完成，正在渲染...")) ]).
Proof.
  intros H Hs Hj Hl. rewrite (run_status_200 w net r H Hs). simpl.
  now rewrite Hj, Hl.
Qed.

(** A status-200 answer whose body is an object without ["response"]. *)
Lemma run_without_response (w : LocalLLMWorker) (net : network) (r : response)
    (entries : list (pystr * pyval)) :
  net 0 = Returns r -> status_code r = 200%Z ->
  json r = inr (PyDict entries) ->
  lookup (lit "response") entries = None ->
  run_thread w net =
  (Normal tt,
   [ Emit (log_updated (lit "正在请求本地大模型进行计算..."));
     Post (api_url w) (data w);
     Emit (result_ready []);
     Emit (log_updated (lit "计算完成，正在渲染...")) ]).
Proof.
  intros H Hs Hj Hl. rewrite (run_status_200 w net r H Hs). simpl.
  now rewrite Hj, Hl.
Qed.

(** ** The claims *)

(** C1. When the POST returns a status other than 200 or raises, the run
    emits a log message through [log_updated] (["错误: API 返回 {code}"],
    respectively ["连接本地模型失败: {exception}"]) and never emits
    [result_ready], so the handlers of the window run no script on the
    flowchart page. *)
Theorem error_is_logged_and_no_result (w : LocalLLMWorker) (net : network)
    (msg : pystr) :
  (exists e, net 0 = Raises e /\
             msg = lit "连接本地模型失败: " ++ exn_str e) \/
  (exists r, net 0 = Returns r /\ status_code r <> 200%Z /\
             msg = lit "错误: API 返回 " ++ of_int (status_code r)) ->
  let t := snd (run_thread w net) in
  signals t = [ log_updated (lit "正在请求本地大模型进行计算...");
                log_updated msg ] /\
  In (log_updated msg) (signals t) /\
  results t = [] /\
  forall g, view_flow_scripts (fold_left on_signal (signals t) g)
            = view_flow_scripts g.
Proof.
  intros [[e [H ->]] | [r [H [Hs ->]]]] t; subst t.
  - rewrite (run_post_raises w net e H). simpl.
    repeat split; auto.
  - rewrite (run_status_not_200 w net r H Hs). simpl.
    repeat split; auto.
Qed.

Lemma error_is_logged_and_no_result_witness :
  let t := snd (run_thread sample_worker (net_status 404)) in
  signals t = [ log_updated (lit "正在请求本地大模型进行计算...");
                log_updated (lit "错误: API 返回 404") ] /\
  In (log_updated (lit "错误: API 返回 404")) (signals t) /\
  results t = [] /\
  forall g, view_flow_scripts (fold_left on_signal (signals t) g)
            = view_flow_scripts g.
Proof.
  apply (error_is_logged_and_no_result sample_worker (net_status 404)).
  right. eexists. split; [reflexivity|]. split; [simpl; lia | reflexivity].
Defined.

(** C2. On a run with status 200, the string emitted through [result_ready]
    is the ["response"] field of the JSON body with every ["```mermaid"]
    removed, then every ["```"] removed, then stripped of leading and
    trailing whitespace. *)
Theorem result_is_cleaned_response (w : LocalLLMWorker) (net : network)
    (r : response) (entries : list (pystr * pyval)) (s : pystr) :
  net 0 = Returns r -> status_code r = 200%Z ->
  json r = inr (PyDict entries) ->
  lookup (lit "response") entries = Some (PyStr s) ->
  results (snd (run_thread w net)) =
  [ strip (replace (replace s (lit "```mermaid") []) (lit "```") []) ].
Proof.
  intros H Hs Hj Hl. now rewrite (run_with_response w net r entries s).
Qed.

Lemma result_is_cleaned_response_witness :
  results (snd (run_thread sample_worker (net_json sample_answer))) =
  [ lit "graph TD; A-->B;" ].
Proof.
  apply (result_is_cleaned_response sample_worker (net_json sample_answer)
           (Response 200 (inr sample_answer))
           [ (lit "model", PyStr (lit "qwen2.5"));
             (lit "response", PyStr (lit "```mermaid graph TD; A-->B; ```"));
             (lit "done", PyBool true) ]
           (lit "```mermaid graph TD; A-->B; ```"));
    reflexivity.
Defined.

(** C3, as stated: every run whose POST returns status 200 emits exactly two
    signals once the request has come back.  It fails when the body of the
    200 answer cannot be decoded: [response.json()] raises, the handler logs
    the failure, and that log is the only signal after the request. *)
Lemma status_200_undecodable_body_one_signal :
  ~ (forall (w : LocalLLMWorker) (net : network) (r : response),
        net 0 = Returns r -> status_code r = 200%Z ->
        List.length (signals_after_post (snd (run_thread w net))) = 2).
Proof.
  intros H.
  specialize (H sample_worker (net_status 200) _ eq_refl eq_refl).
  vm_compute in H. discriminate.
Qed.

(** C3, amended. When the POST returns status 200 and the body decodes to an
    object whose ["response"] entry is a string or is missing, exactly two
    signals follow the request: [result_ready] with the cleaned text, then
    [log_updated] with ["计算完成，正在渲染..."]. *)
Theorem two_signals_after_successful_post (w : LocalLLMWorker) (net : network)
    (r : response) (entries : list (pystr * pyval)) (s : pystr) :
  net 0 = Returns r -> status_code r = 200%Z ->
  json r = inr (PyDict entries) ->
  lookup (lit "response") entries = Some (PyStr s) \/
  (lookup (lit "response") entries = None /\ s = []) ->
  signals_after_post (snd (run_thread w net)) =
  [ result_ready (clean s); log_updated (lit "计算完成，正在渲染...") ] /\
  List.length (signals_after_post (snd (run_thread w net))) = 2.
Proof.
  intros H Hs Hj [Hl | [Hl ->]].
  - rewrite (run_with_response w net r entries s H Hs Hj Hl). now split.
  - rewrite (run_without_response w net r entries H Hs Hj Hl). now split.
Qed.

Lemma two_signals_after_successful_post_witness :
  signals_after_post (snd (run_thread sample_worker (net_json sample_answer))) =
  [ result_ready (clean (lit "```mermaid graph TD; A-->B; ```"));
    log_updated (lit "计算完成，正在渲染...") ] /\
  List.length
    (signals_after_post (snd (run_thread sample_worker (net_json sample_answer))))
  = 2.
Proof.
  apply (two_signals_after_successful_post sample_worker (net_json sample_answer)
           (Response 200 (inr sample_answer))
           [ (lit "model", PyStr (lit "qwen2.5"));
             (lit "response", PyStr (lit "```mermaid graph TD; A-->B; ```"));
             (lit "done", PyBool true) ]);
    try reflexivity.
  left. reflexivity.
Defined.

(** C4. A run issues at most one HTTP POST, whatever the network answers: no
    retry after a status other than 200 or after an exception, no second
    request after a success.  (It issues exactly one, to [api_url].) *)
Theorem at_most_one_post (w : LocalLLMWorker) (net : network) :
  List.length (posts (snd (run_thread w net))) <= 1 /\
  posts (snd (run_thread w net)) = [(api_url w, data w)].
Proof.
  rewrite run_posts_once. simpl. split; [lia | reflexivity].
Qed.

(** C5. For every context text the body of the POST is an object that maps
    ["model"] to ["qwen2.5"] and ["prompt"] to the system prompt followed by
    ["\n\n【图纸信息】:\n"] followed by the context text; the context text is
    thus a suffix of the prompt. *)
Theorem post_body_has_model_and_prompt (w : LocalLLMWorker) (net : network) :
  exists (entries : list (pystr * pyval)) (prompt : pystr),
    map snd (posts (snd (run_thread w net))) = [PyDict entries] /\
    lookup (lit "model") entries = Some (PyStr (lit "qwen2.5")) /\
    lookup (lit "prompt") entries = Some (PyStr prompt) /\
    prompt = system_prompt w ++ [nl; nl] ++ lit "【图纸信息】:" ++ [nl]
             ++ context_text w /\
    exists before, prompt = before ++ context_text w.
Proof.
  rewrite run_posts_once. unfold data.
  do 2 eexists. split; [reflexivity|].
  split; [reflexivity|]. split; [reflexivity|]. split; [reflexivity|].
  unfold full_prompt.
  exists (system_prompt w ++ [nl; nl] ++ lit "【图纸信息】:" ++ [nl]).
  now rewrite <- !app_assoc.
Qed.

(** C6. [run] never raises: from any trace and against any network it ends
    normally, and every exception raised inside the [try] block becomes one
    [log_updated] emission whose text is ["连接本地模型失败: "] followed by
    the string form of the exception. *)
Theorem run_catches_every_exception (w : LocalLLMWorker) (net : network)
    (t : trace) :
  fst (run w net t) = Normal tt /\
  forall e t', request_block w net t = (Raised e, t') ->
    snd (run w net t) =
    t' ++ [Emit (log_updated (lit "连接本地模型失败: " ++ exn_str e))].
Proof.
  unfold run, try_except.
  destruct (request_block w net t) as [[[]|e] t'].
  - split; [reflexivity | discriminate].
  - split; [reflexivity|]. intros e0 t0 H. now injection H as -> ->.
Qed.

Lemma run_catches_every_exception_witness :
  snd (run sample_worker net_refused []) =
  [ Emit (log_updated (lit "正在请求本地大模型进行计算..."));
    Post (api_url sample_worker) (data sample_worker) ]
  ++ [Emit (log_updated (lit "连接本地模型失败: Connection refused"))].
Proof.
  apply (proj2 (run_catches_every_exception sample_worker net_refused [])
           (Exception (lit "Connection refused"))).
  reflexivity.
Defined.

(** C7. For a non-empty context text and a 200 answer whose body maps
    ["response"] to a string, [result_ready] is emitted once and carries a
    string. *)
Theorem string_in_string_out (w : LocalLLMWorker) (net : network)
    (r : response) (entries : list (pystr * pyval)) (s : pystr) :
  context_text w <> [] ->
  net 0 = Returns r -> status_code r = 200%Z ->
  json r = inr (PyDict entries) ->
  lookup (lit "response") entries = Some (PyStr s) ->
  exists out : pystr,
    signals (snd (run_thread w net)) =
    [ log_updated (lit "正在请求本地大模型进行计算...");
      result_ready out;
      log_updated (lit "计算完成，正在渲染...") ] /\
    results (snd (run_thread w net)) = [out].
Proof.
  intros _ H Hs Hj Hl. exists (clean s).
  now rewrite (run_with_response w net r entries s H Hs Hj Hl).
Qed.

Lemma string_in_string_out_witness :
  exists out : pystr,
    signals (snd (run_thread sample_worker (net_json sample_answer))) =
    [ log_updated (lit "正在请求本地大模型进行计算...");
      result_ready out;
      log_updated (lit "计算完成，正在渲染...") ] /\
    results (snd (run_thread sample_worker (net_json sample_answer))) = [out].
Proof.
  apply (string_in_string_out sample_worker (net_json sample_answer)
           (Response 200 (inr sample_answer))
           [ (lit "model", PyStr (lit "qwen2.5"));
             (lit "response", PyStr (lit "```mermaid graph TD; A-->B; ```"));
             (lit "done", PyBool true) ]
           (lit "```mermaid graph TD; A-->B; ```"));
    try reflexivity.
  vm_compute. discriminate.
Defined.

(** C8. The cleaning of the response is idempotent. *)
Theorem clean_idempotent (s : pystr) : clean (clean s) = clean s.
Proof.
  rewrite (clean_fixed (clean s)) by apply clean_no_fence.
  unfold clean. apply strip_idem.
Qed.

(** C10. With status 200 and a body that is an object without a
    ["response"] key, the run does not fail: [result_ready] is emitted and
    carries the empty string. *)
Theorem missing_response_gives_empty_result (w : LocalLLMWorker)
    (net : network) (r : response) (entries : list (pystr * pyval)) :
  net 0 = Returns r -> status_code r = 200%Z ->
  json r = inr (PyDict entries) ->
  lookup (lit "response") entries = None ->
  fst (run_thread w net) = Normal tt /\
  results (snd (run_thread w net)) = [[]] /\
  logs (snd (run_thread w net)) =
  [ lit "正在请求本地大模型进行计算..."; lit "计算完成，正在渲染..." ].
Proof.
  intros H Hs Hj Hl.
  rewrite (run_without_response w net r entries H Hs Hj Hl). now repeat split.
Qed.

Lemma missing_response_gives_empty_result_witness :
  let net := net_json (PyDict [(lit "error", PyStr (lit "model not found"))]) in
  fst (run_thread sample_worker net) = Normal tt /\
  results (snd (run_thread sample_worker net)) = [[]] /\
  logs (snd (run_thread sample_worker net)) =
  [ lit "正在请求本地大模型进行计算..."; lit "计算完成，正在渲染..." ].
Proof.
  apply (missing_response_gives_empty_result sample_worker
           (net_json (PyDict [(lit "error", PyStr (lit "model not found"))]))
           (Response 200 (inr (PyDict [(lit "error", PyStr (lit "model not found"))])))
           [(lit "error", PyStr (lit "model not found"))]);
    reflexivity.
Defined.

(** X17. One press of the generate button against a network whose answer is an
    error (an exception or a status other than 200): the flowchart page is
    left as it was and the button is enabled again. *)
Lemma generation_on_error (net : network) (g : ProcessGuiApp) :
  (exists e, net 0 = Raises e) \/
  (exists r, net 0 = Returns r /\ status_code r <> 200%Z) ->
  view_flow_scripts (generation net g) = view_flow_scripts g /\
  btn_gen_flow_enabled (generation net g) = true.
Proof.
  unfold generation.
  intros [[e H] | [r [H Hs]]].
  - now rewrite (run_post_raises _ net e H).
  - now rewrite (run_status_not_200 _ net r H Hs).
Qed.

(** ** The escaping of [update_flow_chart] *)

Lemma replace_char (a : N) (new s : pystr) :
  replace s [a] new = flat_map (fun c => if (a =? c)%N then new else [c]) s.
Proof.
  unfold replace. induction s as [|c s IH]; [reflexivity|].
  rewrite replace_scan_cons. simpl. rewrite andb_true_r.
  destruct (a =? c)%N; simpl; now rewrite IH.
Qed.

Lemma safe_code_cons (c : N) (s : pystr) :
  safe_code (c :: s) = escaped c ++ safe_code s.
Proof.
  unfold safe_code. rewrite !replace_char. simpl flat_map at 2.
  rewrite flat_map_app. f_equal.
  unfold escaped. rewrite (N.eqb_sym nl c).
  destruct (c =? nl)%N eqn:E; [reflexivity|].
  simpl. now rewrite app_nil_r, (N.eqb_sym quote c).
Qed.

(** X8. Where the Mermaid code has neither a backslash nor a carriage return, the
    JavaScript literal built by [update_flow_chart] denotes that code. *)
Lemma escaping_round_trips_on (s : pystr) :
  ~ In backslash s -> ~ In 13%N s ->
  js_string_value (safe_code s) = Some s.
Proof.
  induction s as [|c s IH]; intros Hb Hr; [reflexivity|].
  rewrite safe_code_cons.
  assert (IH' : js_string_value (safe_code s) = Some s).
  { apply IH; intros Hin; [apply Hb | apply Hr]; now right. }
  assert (Hc1 : (c =? backslash)%N = false).
  { apply N.eqb_neq. intros ->. apply Hb. now left. }
  assert (Hc2 : (c =? 13)%N = false).
  { apply N.eqb_neq. intros ->. apply Hr. now left. }
  unfold escaped.
  destruct (c =? nl)%N eqn:E1.
  - apply N.eqb_eq in E1. subst c. simpl. now rewrite IH'.
  - destruct (c =? quote)%N eqn:E2.
    + apply N.eqb_eq in E2. subst c. simpl. now rewrite IH'.
    + simpl app. simpl js_string_value.
      change 10%N with nl. rewrite E1, E2, Hc1, Hc2. simpl.
      now rewrite IH'.
Qed.

(** C9, evaluated on the code. The Mermaid text [A[a\nb]] (with a backslash
    and the letter n) is emitted unchanged by a run; [safe_code] leaves it
    unchanged, and JavaScript reads the literal as [A[a], a line feed, [b]]:
    the page does not receive the code that was emitted.  A lone backslash
    or a carriage return leaves no string literal at all. *)
Theorem escaping_misses_backslash :
  let code := lit "A[a\nb]" in
  results (snd (run_thread sample_worker
                  (net_json (PyDict [(lit "response", PyStr code)])))) = [code] /\
  safe_code code = code /\
  js_string_value (safe_code code) = Some (lit "A[a" ++ [nl] ++ lit "b]") /\
  js_string_value (safe_code code) <> Some code /\
  js_string_value (safe_code [backslash]) = None /\
  js_string_value (safe_code (lit "a" ++ [13%N; nl] ++ lit "b")) = None.
Proof.
  vm_compute. repeat split; discriminate.
Qed.

(** * Further properties of the code *)

(** ** The shape of every run *)

(** Whatever the network answers, a run is: the request log, the POST, and
    then either the cleaned answer followed by the completion log, or one
    log line alone. *)
Lemma run_shape (w : LocalLLMWorker) (net : network) :
  exists tail,
    run_thread w net =
    (Normal tt,
     Emit (log_updated (lit "正在请求本地大模型进行计算..."))
     :: Post (api_url w) (data w) :: tail) /\
    ((exists s, answer_text (net 0) = Some s /\
                tail = [ Emit (result_ready (clean s));
                         Emit (log_updated (lit "计算完成，正在渲染...")) ]) \/
     (exists m, answer_text (net 0) = None /\
                tail = [Emit (log_updated m)])).
Proof.
  unfold answer_text.
  destruct (net 0) as [e|r] eqn:H.
  - eexists. split; [apply (run_post_raises w net e H)|].
    right. eexists. split; reflexivity.
  - destruct (Z.eq_dec (status_code r) 200) as [Hs|Hs].
    + rewrite (run_status_200 w net r H Hs).
      apply Z.eqb_eq in Hs. rewrite Hs. simpl.
      destruct (json r) as [e|v].
      { eexists. split; [reflexivity|]. right. eexists. split; reflexivity. }
      destruct v;
        try (eexists; split; [reflexivity|]; right; eexists; split; reflexivity).
      destruct (lookup (lit "response") entries) as [v|].
      * destruct v;
          try (eexists; split; [reflexivity|]; right; eexists; split; reflexivity).
        eexists. split; [reflexivity|]. left. eexists. split; reflexivity.
      * eexists. split; [reflexivity|]. left. eexists. split; reflexivity.
    + eexists. split; [apply (run_status_not_200 w net r H Hs)|].
      apply Z.eqb_neq in Hs. rewrite Hs.
      right. eexists. split; reflexivity.
Qed.

(** X1. [result_ready] is emitted exactly for a usable answer (status 200, an
    object body whose ["response"] is a string or missing) and then carries
    the cleaned text; for every other answer nothing is emitted through it. *)
Theorem results_by_answer (w : LocalLLMWorker) (net : network) :
  results (snd (run_thread w net)) =
  match answer_text (net 0) with
  | Some s => [clean s]
  | None => []
  end.
Proof.
  destruct (run_shape w net) as [tail [-> [[s [-> ->]] | [m [-> ->]]]]];
    reflexivity.
Qed.

(** X2. Every run emits exactly two log messages, the first of them the
    request notice sent before the POST, and at most one result. *)
Theorem two_logs_per_run (w : LocalLLMWorker) (net : network) :
  exists final,
    logs (snd (run_thread w net)) =
    [ lit "正在请求本地大模型进行计算..."; final ] /\
    List.length (results (snd (run_thread w net))) <= 1 /\
    hd_error (snd (run_thread w net)) =
    Some (Emit (log_updated (lit "正在请求本地大模型进行计算..."))).
Proof.
  destruct (run_shape w net) as [tail [-> [[s [_ ->]] | [m [_ ->]]]]];
    eexists; simpl; repeat split; lia.
Qed.

(** X3. Whatever is emitted through [result_ready] holds no run of three
    backquotes and has no whitespace at either end. *)
Theorem results_are_trimmed (w : LocalLLMWorker) (net : network) (x : pystr) :
  In x (results (snd (run_thread w net))) ->
  contains (lit "```") x = false /\ strip x = x.
Proof.
  destruct (run_shape w net) as [tail [-> [[s [_ ->]] | [m [_ ->]]]]];
    simpl; [|intros []].
  intros [<- | []].
  split; [apply clean_no_fence | unfold clean; apply strip_idem].
Qed.

Lemma results_are_trimmed_witness :
  contains (lit "```") (lit "graph TD; A-->B;") = false /\
  strip (lit "graph TD; A-->B;") = lit "graph TD; A-->B;".
Proof.
  apply (results_are_trimmed sample_worker (net_json sample_answer)).
  vm_compute. left. reflexivity.
Defined.

(** X4. A run consults the network once: two networks that agree on the
    first answer give the same run. *)
Theorem run_reads_first_answer_only (w : LocalLLMWorker) (net net' : network) :
  net 0 = net' 0 -> run_thread w net = run_thread w net'.
Proof.
  intros E. destruct (net 0) as [e|r] eqn:H; symmetry in E.
  - now rewrite (run_post_raises w net e H), (run_post_raises w net' e E).
  - destruct (Z.eq_dec (status_code r) 200) as [Hs|Hs].
    + now rewrite (run_status_200 w net r H Hs), (run_status_200 w net' r E Hs).
    + now rewrite (run_status_not_200 w net r H Hs),
        (run_status_not_200 w net' r E Hs).
Qed.

Lemma run_reads_first_answer_only_witness :
  run_thread sample_worker (net_status 500) =
  run_thread sample_worker
    (fun k => match k with
              | O => net_status 500 O
              | S _ => Returns (Response 200 (inr sample_answer))
              end).
Proof.
  apply (run_reads_first_answer_only sample_worker). reflexivity.
Defined.

(** ** The prompt and the status message *)

(** X5. For a given prompt type the prompt determines the context text:
    different drawings are never sent as the same prompt. *)
Theorem full_prompt_determines_context (w1 w2 : LocalLLMWorker) :
  prompt_type w1 = prompt_type w2 ->
  full_prompt w1 = full_prompt w2 ->
  context_text w1 = context_text w2.
Proof.
  unfold full_prompt, system_prompt. intros -> H.
  rewrite !app_assoc in H. now apply app_inv_head in H.
Qed.

Lemma full_prompt_determines_context_witness :
  context_text sample_worker =
  context_text (new_worker (lit "零件名称: 传动轴") (lit "process_flow")).
Proof.
  apply (full_prompt_determines_context sample_worker
           (new_worker (lit "零件名称: 传动轴") (lit "process_flow")));
    reflexivity.
Defined.

Lemma bytes_of_inj (a b : string) : bytes_of a = bytes_of b -> a = b.
Proof.
  revert b; induction a as [|x a IH]; intros [|y b] H; try discriminate.
  - reflexivity.
  - simpl in H. injection H as Hx H. f_equal; [|now apply IH].
    rewrite <- (ascii_N_embedding x), <- (ascii_N_embedding y). now f_equal.
Qed.

Lemma to_int_printable (z : Z) :
  Z.to_int z <> Decimal.Pos Decimal.Nil /\ Z.to_int z <> Decimal.Neg Decimal.Nil.
Proof.
  destruct z as [|q|q]; simpl; split; try discriminate;
    intros H; injection H as H; now apply DecimalPos.Unsigned.to_uint_nonnil in H.
Qed.

(** The decimal form of a Python [int] can be read back: two integers print
    alike only if they are equal. *)
Lemma of_int_injective (a b : Z) : of_int a = of_int b -> a = b.
Proof.
  unfold of_int. intros H. apply bytes_of_inj in H.
  apply DecimalZ.to_int_inj.
  destruct (to_int_printable a) as [Ha1 Ha2].
  destruct (to_int_printable b) as [Hb1 Hb2].
  pose proof (NilZero.isi (Z.to_int a) Ha1 Ha2) as Ea.
  pose proof (NilZero.isi (Z.to_int b) Hb1 Hb2) as Eb.
  rewrite H in Ea. rewrite Ea in Eb. now injection Eb.
Qed.

(** X6. The log of a refused request identifies the status: two runs whose
    POST returned statuses other than 200 log the same lines only if the
    statuses are equal. *)
Theorem status_log_identifies_status (w : LocalLLMWorker) (net net' : network)
    (r r' : response) :
  net 0 = Returns r -> status_code r <> 200%Z ->
  net' 0 = Returns r' -> status_code r' <> 200%Z ->
  logs (snd (run_thread w net)) = logs (snd (run_thread w net')) ->
  status_code r = status_code r'.
Proof.
  intros H Hs H' Hs'.
  rewrite (run_status_not_200 w net r H Hs),
    (run_status_not_200 w net' r' H' Hs').
  simpl. intros E. injection E as E.
  now apply of_int_injective.
Qed.

Lemma status_log_identifies_status_witness :
  status_code (Response 404 (inl (Exception (lit "Expecting value")))) =
  status_code (Response 404 (inr PyNone)).
Proof.
  apply (status_log_identifies_status sample_worker (net_status 404)
           (fun _ => Returns (Response 404 (inr PyNone)))
           (Response 404 (inl (Exception (lit "Expecting value"))))
           (Response 404 (inr PyNone)));
    try reflexivity; simpl; lia.
Defined.

(** ** The cleaning of the answer *)

Lemma replace_scan_shrinks (old : pystr) (k : nat) (s : pystr) :
  List.length (replace_scan old [] k s) <= List.length s.
Proof.
  revert k; induction s as [|c s IH]; intros k; [now destruct k|].
  destruct k as [|k].
  - rewrite replace_scan_cons. destruct (startswith old (c :: s)); simpl.
    + specialize (IH (List.length old - 1)). lia.
    + specialize (IH 0). lia.
  - simpl. specialize (IH k). lia.
Qed.

Lemma lstrip_shrinks (s : pystr) : List.length (lstrip s) <= List.length s.
Proof.
  induction s as [|c s IH]; simpl; [lia|].
  destruct (isspace c); simpl; lia.
Qed.

Lemma strip_shrinks (s : pystr) : List.length (strip s) <= List.length s.
Proof.
  unfold strip, rstrip. rewrite length_rev.
  pose proof (lstrip_shrinks (rev (lstrip s))) as H1.
  pose proof (lstrip_shrinks s) as H2.
  rewrite length_rev in H1. lia.
Qed.

(** X13. Cleaning only removes characters: the cleaned answer is never
    longer than the answer. *)
Theorem clean_never_longer (s : pystr) :
  List.length (clean s) <= List.length s.
Proof.
  unfold clean. rewrite lit_tag, lit_fence. unfold fence, replace. simpl app.
  pose proof (strip_shrinks
    (replace_scan [96; 96; 96]%N [] 0
       (replace_scan (96 :: 96 :: 96 :: lit "mermaid")%N [] 0 s))) as H1.
  pose proof (replace_scan_shrinks [96; 96; 96]%N 0
    (replace_scan (96 :: 96 :: 96 :: lit "mermaid")%N [] 0 s)) as H2.
  pose proof (replace_scan_shrinks (96 :: 96 :: 96 :: lit "mermaid")%N 0 s) as H3.
  lia.
Qed.

(** X14. Text that holds no run of three backquotes and no whitespace at
    its ends passes through the cleaning unchanged. *)
Theorem clean_keeps_plain_code (s : pystr) :
  contains (lit "```") s = false -> strip s = s -> clean s = s.
Proof.
  intros H Hs. rewrite clean_fixed; [exact Hs | exact H].
Qed.

Lemma clean_keeps_plain_code_witness :
  clean (lit "graph TD; A-->B;") = lit "graph TD; A-->B;".
Proof.
  apply (clean_keeps_plain_code (lit "graph TD; A-->B;")); reflexivity.
Defined.

Section FreePrefix.

Variables (q : N) (o new : pystr).

Lemma startswith_self (rest : pystr) : startswith (q :: o) ((q :: o) ++ rest) = true.
Proof. apply startswith_iff. now exists rest. Qed.

Lemma replace_scan_at_match (rest : pystr) :
  replace_scan (q :: o) new 0 ((q :: o) ++ rest) =
  new ++ replace_scan (q :: o) new 0 rest.
Proof.
  simpl app. rewrite replace_scan_cons.
  change (q :: o ++ rest) with ((q :: o) ++ rest). rewrite startswith_self.
  f_equal. rewrite replace_scan_skip. f_equal.
  simpl. rewrite Nat.sub_0_r.
  rewrite skipn_app, skipn_all, Nat.sub_diag. reflexivity.
Qed.

Lemma startswith_other (c : N) (s : pystr) :
  c <> q -> startswith (q :: o) (c :: s) = false.
Proof.
  intros H. simpl. apply N.eqb_neq in H. rewrite N.eqb_sym in H.
  now rewrite H.
Qed.

Lemma replace_scan_free_prefix (body rest : pystr) :
  ~ In q body ->
  replace_scan (q :: o) new 0 (body ++ rest) =
  body ++ replace_scan (q :: o) new 0 rest.
Proof.
  induction body as [|c body IH]; intros H; [reflexivity|].
  simpl app. rewrite replace_scan_cons, startswith_other.
  - f_equal. apply IH. intros Hin. apply H. now right.
  - intros ->. apply H. now left.
Qed.

End FreePrefix.

(** X15. An answer wrapped as a Markdown block, ["```mermaid"] then a body
    without backquotes then ["```"], is cleaned to the stripped body. *)
Theorem clean_unwraps_block (body : pystr) :
  ~ In 96%N body ->
  clean (lit "```mermaid" ++ body ++ lit "```") = strip body.
Proof.
  intros H. unfold clean. f_equal.
  change (lit "```mermaid") with (96 :: 96 :: 96 :: lit "mermaid")%N.
  change (lit "```") with [96; 96; 96]%N.
  unfold replace.
  rewrite replace_scan_at_match. simpl app at 1.
  rewrite (replace_scan_free_prefix 96 _ [] body _ H).
  rewrite (replace_scan_free_prefix 96 _ [] body _ H).
  change (replace_scan [96; 96; 96]%N [] 0
            (replace_scan (96 :: 96 :: 96 :: lit "mermaid")%N [] 0 [96; 96; 96]%N))
    with (@nil N).
  apply app_nil_r.
Qed.

Lemma clean_unwraps_block_witness :
  clean (lit "```mermaid" ++ (nl :: lit "graph TD; A-->B;" ++ [nl]) ++ lit "```")
  = strip (nl :: lit "graph TD; A-->B;" ++ [nl]).
Proof.
  apply (clean_unwraps_block (nl :: lit "graph TD; A-->B;" ++ [nl])).
  vm_compute. intuition discriminate.
Defined.

(** ** The script sent to the flowchart page *)

Lemma escaping_round_trips_on_witness :
  js_string_value (safe_code (lit "graph TD;" ++ [nl] ++ lit "A[" ++ [quote]
                              ++ lit "45钢" ++ [quote] ++ lit "]-->B;"))
  = Some (lit "graph TD;" ++ [nl] ++ lit "A[" ++ [quote]
          ++ lit "45钢" ++ [quote] ++ lit "]-->B;").
Proof.
  apply (escaping_round_trips_on
           (lit "graph TD;" ++ [nl] ++ lit "A[" ++ [quote]
            ++ lit "45钢" ++ [quote] ++ lit "]-->B;"));
    vm_compute; intuition discriminate.
Defined.

(** X7. The escaped code holds no line feed, whatever the Mermaid code: the
    script passed to the page is a single line. *)
Theorem safe_code_has_no_line_feed (s : pystr) :
  ~ In nl (safe_code s) /\ ~ In nl (js_command s).
Proof.
  assert (Hs : ~ In nl (safe_code s)); [|split; [exact Hs|]].
  2:{ unfold js_command. intros H.
      apply in_app_or in H as [H|H]; [vm_compute in H; intuition discriminate|].
      apply in_app_or in H as [H|H]; [vm_compute in H; intuition discriminate|].
      apply in_app_or in H as [H|H]; [auto|].
      vm_compute in H; intuition discriminate. }
  induction s as [|c s IH]; [intros []|].
  rewrite safe_code_cons. intros H. apply in_app_or in H as [H|H]; [|auto].
  unfold escaped in H.
  destruct (c =? nl)%N eqn:E1.
  - simpl in H. intuition discriminate.
  - destruct (c =? quote)%N eqn:E2.
    + simpl in H. intuition discriminate.
    + simpl in H. destruct H as [H|[]]. apply N.eqb_neq in E1. auto.
Qed.

(** ** The window *)

(** X9. Handling the signals of a worker only appends: each signal adds one
    line to the log, each [result_ready] adds one script to the flowchart
    page, and the OCR text and the button are left alone. *)
Theorem signals_only_append (sgs : list signal) (g : ProcessGuiApp) :
  log_area (fold_left on_signal sgs g) = log_area g ++ map log_line sgs /\
  view_flow_scripts (fold_left on_signal sgs g) =
    view_flow_scripts g ++ flat_map script_of sgs /\
  ocr_text (fold_left on_signal sgs g) = ocr_text g /\
  btn_gen_flow_enabled (fold_left on_signal sgs g) = btn_gen_flow_enabled g.
Proof.
  revert g; induction sgs as [|sg sgs IH]; intros g; simpl.
  - now rewrite !app_nil_r.
  - destruct (IH (on_signal g sg)) as [H1 [H2 [H3 H4]]].
    rewrite H1, H2, H3, H4.
    destruct sg; simpl; rewrite <- !app_assoc; auto.
Qed.

Lemma generation_unfold (net : network) (g : ProcessGuiApp) :
  generation net g =
  setEnabled true
    (fold_left on_signal
       (signals (snd (run_thread (snd (start_generation g)) net)))
       (fst (start_generation g))).
Proof. reflexivity. Qed.

(** X10. One press of the button with a usable answer: the log gains, in
    this order, the start notice, the request notice, the notice of the
    received answer and the completion notice; the flowchart page runs one
    script, [updateGraph] on the escaped cleaned answer; the button is enabled
    again. *)
Theorem generation_with_answer (net : network) (g : ProcessGuiApp) (s : pystr) :
  answer_text (net 0) = Some s ->
  log_area (generation net g) =
    log_area g ++ [ lit "开始调用本地模型...";
                    lit "正在请求本地大模型进行计算...";
                    lit "收到模型反馈，正在渲染图表...";
                    lit "计算完成，正在渲染..." ] /\
  view_flow_scripts (generation net g) =
    view_flow_scripts g ++
    [ lit "updateGraph(" ++ [quote] ++ safe_code (clean s) ++ [quote] ++ lit ");" ] /\
  btn_gen_flow_enabled (generation net g) = true.
Proof.
  intros Ha. rewrite generation_unfold.
  destruct (run_shape (snd (start_generation g)) net)
    as [tail [-> [[s' [Hs ->]] | [m [Hn _]]]]]; [|congruence].
  rewrite Ha in Hs. injection Hs as <-.
  simpl. rewrite <- !app_assoc. auto.
Qed.

Lemma generation_with_answer_witness :
  log_area (generation (net_json sample_answer) init_app) =
    log_area init_app ++ [ lit "开始调用本地模型...";
                           lit "正在请求本地大模型进行计算...";
                           lit "收到模型反馈，正在渲染图表...";
                           lit "计算完成，正在渲染..." ] /\
  view_flow_scripts (generation (net_json sample_answer) init_app) =
    view_flow_scripts init_app ++
    [ lit "updateGraph(" ++ [quote]
      ++ safe_code (clean (lit "```mermaid graph TD; A-->B; ```"))
      ++ [quote] ++ lit ");" ] /\
  btn_gen_flow_enabled (generation (net_json sample_answer) init_app) = true.
Proof.
  apply (generation_with_answer (net_json sample_answer) init_app).
  reflexivity.
Defined.

(** X11. One press of the button, whatever the network answers: what was in
    the log and on the page stays, the log gains the start notice and then
    two or three lines, the page runs at most one new script, the OCR text is
    unchanged and the button ends enabled. *)
Theorem generation_always (net : network) (g : ProcessGuiApp) :
  exists lines scripts,
    log_area (generation net g) =
      log_area g ++ lit "开始调用本地模型..." :: lines /\
    2 <= List.length lines <= 3 /\
    view_flow_scripts (generation net g) = view_flow_scripts g ++ scripts /\
    List.length scripts <= 1 /\
    ocr_text (generation net g) = ocr_text g /\
    btn_gen_flow_enabled (generation net g) = true.
Proof.
  rewrite generation_unfold.
  destruct (run_shape (snd (start_generation g)) net)
    as [tail [-> [[s [_ ->]] | [m [_ ->]]]]]; simpl.
  - exists [ lit "正在请求本地大模型进行计算...";
             lit "收到模型反馈，正在渲染图表...";
             lit "计算完成，正在渲染..." ], [js_command (clean s)].
    rewrite <- !app_assoc. simpl. repeat split; lia.
  - exists [ lit "正在请求本地大模型进行计算..."; m ], [].
    rewrite <- !app_assoc, app_nil_r. simpl. repeat split; lia.
Qed.

(** X12. Loading an image adds one log line naming the file (none when the
    dialog is cancelled) and changes nothing else: the OCR text, and with it
    the worker the next press of the button creates, stay the same. *)
Theorem load_image_keeps_request (fname : pystr) (g : ProcessGuiApp) :
  log_area (load_image fname g) =
    log_area g ++ match fname with
                  | [] => []
                  | _ :: _ => [lit "已加载: " ++ fname]
                  end /\
  ocr_text (load_image fname g) = ocr_text g /\
  view_flow_scripts (load_image fname g) = view_flow_scripts g /\
  btn_gen_flow_enabled (load_image fname g) = btn_gen_flow_enabled g /\
  snd (start_generation (load_image fname g)) = snd (start_generation g).
Proof.
  destruct fname as [|c fname]; simpl.
  - rewrite app_nil_r. auto.
  - auto.
Qed.

Lemma generation_on_error_witness :
  view_flow_scripts (generation net_refused init_app) = view_flow_scripts init_app /\
  btn_gen_flow_enabled (generation net_refused init_app) = true.
Proof.
  apply (generation_on_error net_refused init_app).
  left. eexists. reflexivity.
Defined.

(** X16. An answer with status 200 that the code cannot use (the body does
    not decode, is not an object, or holds something other than a string
    under ["response"]) is reported like a failed connection: the run's last
    log is ["连接本地模型失败: "] followed by the text of the exception, and
    nothing is emitted through [result_ready]. *)
Theorem unusable_answer_is_logged_as_failure (w : LocalLLMWorker)
    (net : network) (r : response) :
  net 0 = Returns r -> status_code r = 200%Z ->
  answer_text (Returns r) = None ->
  exists e,
    signals (snd (run_thread w net)) =
    [ log_updated (lit "正在请求本地大模型进行计算...");
      log_updated (lit "连接本地模型失败: " ++ exn_str e) ] /\
    (json r = inl e \/
     exists v attr, e = AttributeError v attr /\
                    (json r = inr v \/
                     exists entries, json r = inr (PyDict entries) /\
                       lookup (lit "response") entries = Some v)).
Proof.
  intros H Hs Ha. rewrite (run_status_200 w net r H Hs).
  unfold answer_text in Ha. apply Z.eqb_eq in Hs. rewrite Hs in Ha. cbv zeta.
  destruct (json r) as [e|v].
  - exists e. split; [reflexivity | now left].
  - destruct v as [| b | z | f | s | items | entries].
    1-6: (eexists; split; [reflexivity|];
          right; do 2 eexists; split; [reflexivity | now left]).
    destruct (lookup (lit "response") entries) as [v|] eqn:El; [|discriminate].
    destruct v; try discriminate;
      (eexists; split; [reflexivity|];
       right; do 2 eexists; split; [reflexivity|];
       right; eexists; split; [reflexivity | exact El]).
Qed.

Lemma unusable_answer_is_logged_as_failure_witness :
  exists e,
    signals (snd (run_thread sample_worker
                    (net_json (PyDict [(lit "response", PyInt 7)])))) =
    [ log_updated (lit "正在请求本地大模型进行计算...");
      log_updated (lit "连接本地模型失败: " ++ exn_str e) ] /\
    (json (Response 200 (inr (PyDict [(lit "response", PyInt 7)]))) = inl e \/
     exists v attr, e = AttributeError v attr /\
       (json (Response 200 (inr (PyDict [(lit "response", PyInt 7)]))) = inr v \/
        exists entries,
          json (Response 200 (inr (PyDict [(lit "response", PyInt 7)])))
          = inr (PyDict entries) /\
          lookup (lit "response") entries = Some v)).
Proof.
  apply (unusable_answer_is_logged_as_failure sample_worker
           (net_json (PyDict [(lit "response", PyInt 7)]))
           (Response 200 (inr (PyDict [(lit "response", PyInt 7)]))));
    reflexivity.
Defined.
